(** * locust/user/users.py: the user lifecycle over a shallow embedding

    The development follows the Python module top to bottom:
    [NoClientWarningRaiser], the metaclass [UserMeta], the class [User]
    with its methods [run], [wait], [start] and [stop], and [HttpUser].

    Python objects are modelled by their namespaces: an instance is its
    class together with its [__dict__] (a finite map from attribute names
    to values), a class is its name, its bases and its namespace.  Methods
    are computations in a state-and-exception monad over the receiver and a
    log of the calls that leave the module (hooks, the gevent group, the
    HTTP session, the task resolver). *)

From Stdlib Require Import ZArith.
From stdpp Require Import base strings list gmap fin_maps.

Open Scope string_scope.
Open Scope list_scope.
Set Warnings "-register-all".

(** ** Python values *)

Inductive PyVal : Type :=
  | PyNone
  | PyBool (b : bool)
  | PyInt (n : Z)
  | PyStr (s : string)
  | PyObj (cls : string) (id : nat)
  | PyFunc (qualname : string)
  | PyList (items : list PyVal).

Abbreviation Dict := (gmap string PyVal).

(** Truth value testing, as [if x:] and [not x] do it. *)
Definition py_truthy (v : PyVal) : bool :=
  match v with
  | PyNone => false
  | PyBool b => b
  | PyInt n => negb (n =? 0)%Z
  | PyStr s => negb (String.eqb s "")
  | PyObj _ _ => true
  | PyFunc _ => true
  | PyList items => match items with [] => false | _ :: _ => true end
  end.

(** The operator [==].  Booleans compare as the integers 0 and 1, objects
    without an [__eq__] of their own by identity, lists element by element. *)
Fixpoint py_eq (a b : PyVal) {struct a} : bool :=
  match a, b with
  | PyNone, PyNone => true
  | PyBool x, PyBool y => Bool.eqb x y
  | PyBool x, PyInt n | PyInt n, PyBool x => (n =? (if x then 1 else 0))%Z
  | PyInt n, PyInt m => (n =? m)%Z
  | PyStr s, PyStr t => String.eqb s t
  | PyObj c i, PyObj c' i' => String.eqb c c' && Nat.eqb i i'
  | PyFunc f, PyFunc g => String.eqb f g
  | PyList l, PyList l' =>
      (fix all2 (xs ys : list PyVal) {struct xs} : bool :=
         match xs, ys with
         | [], [] => true
         | x :: xs', y :: ys' => py_eq x y && all2 xs' ys'
         | _, _ => false
         end) l l'
  | _, _ => false
  end.

(** [x is None] *)
Definition is_None (v : PyVal) : bool :=
  match v with PyNone => true | _ => false end.

(** ** Exceptions

    An exception carries the method resolution order of its class, so that
    an [except] clause matches subclasses as Python does. *)

Record Exn : Type := MkExn { exn_mro : list string; exn_msg : string }.

Definition isinstance (e : Exn) (cls : string) : bool :=
  bool_decide (cls ∈ exn_mro e).

(** The exception classes the module imports or meets: [GreenletExit]
    derives from [BaseException] (gevent), [StopUser] and [LocustError]
    from [Exception] (locust.exception). *)
Definition GreenletExit : Exn :=
  MkExn ["GreenletExit"; "BaseException"; "object"] "".
Definition StopUser : Exn :=
  MkExn ["StopUser"; "Exception"; "BaseException"; "object"] "".
Definition LocustError (msg : string) : Exn :=
  MkExn ["LocustError"; "Exception"; "BaseException"; "object"] msg.
Definition AttributeError (msg : string) : Exn :=
  MkExn ["AttributeError"; "Exception"; "BaseException"; "object"] msg.

(** ** Classes, instances and attribute lookup *)

Inductive Class : Type :=
  MkClass (name : string) (bases : list Class) (namespace : Dict).

Definition cls_dict (c : Class) : Dict := let '(MkClass _ _ d) := c in d.

(** Lookup of a name on a class: its own namespace first, then its bases
    from left to right.  For the single-inheritance chains of this module
    this is the method resolution order. *)
Fixpoint class_lookup (c : Class) (k : string) {struct c} : option PyVal :=
  match c with
  | MkClass _ bases ns =>
      match ns !! k with
      | Some v => Some v
      | None =>
          (fix first (bs : list Class) : option PyVal :=
             match bs with
             | [] => None
             | b :: bs' =>
                 match class_lookup b k with
                 | Some v => Some v
                 | None => first bs'
                 end
             end) bases
      end
  end.

Record Instance : Type := MkInstance { inst_class : Class; inst_dict : Dict }.

(** Ordinary attribute lookup on an instance ([object.__getattribute__]):
    the instance [__dict__], then the class. *)
Definition instance_lookup (o : Instance) (k : string) : option PyVal :=
  match inst_dict o !! k with
  | Some v => Some v
  | None => class_lookup (inst_class o) k
  end.

Definition instance_set (o : Instance) (k : string) (v : PyVal) : Instance :=
  MkInstance (inst_class o) (<[k := v]> (inst_dict o)).

Arguments instance_lookup : simpl never.
Arguments instance_set : simpl never.

(** ** Effects: state and exceptions *)

Inductive outcome (A : Type) : Type :=
  | Normal (a : A)
  | Raised (e : Exn).
Arguments Normal {A} a.
Arguments Raised {A} e.

Definition Eff (S A : Type) : Type := S → outcome A * S.

#[global] Instance eff_ret {S} : MRet (Eff S) := λ A a s, (Normal a, s).
#[global] Instance eff_bind {S} : MBind (Eff S) := λ A B k m s,
  match m s with
  | (Normal a, s') => k a s'
  | (Raised e, s') => (Raised e, s')
  end.

Definition raise {S A} (e : Exn) : Eff S A := λ s, (Raised e, s).

(** [try: body  except <classes matched by handles>: handler] *)
Definition try_except {S A} (body : Eff S A) (handles : Exn → bool)
    (handler : Exn → Eff S A) : Eff S A := λ s,
  match body s with
  | (Normal a, s') => (Normal a, s')
  | (Raised e, s') => if handles e then handler e s' else (Raised e, s')
  end.

(** ** The world a method runs in

    A method sees its receiver and leaves a trace of every call that
    leaves its body: the hooks of the user class, methods of objects of
    other modules, the gevent group, the HTTP session, the task resolver. *)

Inductive Event : Type :=
  | EvHook (name : string) (self : Instance)
  | EvMethod (receiver : PyVal) (name : string)
  | EvSpawn (group : PyVal)
  | EvKillone (group greenlet : PyVal)
  | EvHttpSession (base_url request_success request_failure : PyVal)
  | EvSetAttr (target : PyVal) (name : string) (value : PyVal)
  | EvGetTasks (classname : string)
  | EvCheckDeprecated (classname : string).

Record World : Type := MkWorld { w_self : Instance; w_log : list Event }.

(** [self.k] on an instance whose class has no [__getattr__]. *)
Definition getattr_self (k : string) : Eff World PyVal := λ w,
  match instance_lookup (w_self w) k with
  | Some v => (Normal v, w)
  | None => (Raised (AttributeError ("object has no attribute " +:+ k)), w)
  end.

(** [self.k = v] *)
Definition setattr_self (k : string) (v : PyVal) : Eff World unit := λ w,
  (Normal tt, MkWorld (instance_set (w_self w) k v) (w_log w)).

Definition emit (ev : Event) : Eff World unit := λ w,
  (Normal tt, MkWorld (w_self w) (w_log w ++ [ev])).

(** Code of another module run on the receiver: it may change the
    receiver, it cannot touch the trace. *)
Definition on_self {A} (m : Eff Instance A) : Eff World A := λ w,
  let '(r, o) := m (w_self w) in (r, MkWorld o (w_log w)).

Definition this : Eff World Instance := λ w, (Normal (w_self w), w).

(** The metaclass runs before any instance exists: its state is the trace
    alone. *)
Definition record (ev : Event) : Eff (list Event) unit :=
  λ l : list Event, (Normal tt, (l ++ [ev])).

Definition from_outcome {S A} (r : outcome A) : Eff S A := λ s, (r, s).

(** [v.name()] for a value held in an attribute: [None] has no methods,
    any other receiver belongs to another module, whose semantics is
    [invoke]. *)
Definition call_method (invoke : PyVal → string → Eff Instance PyVal)
    (receiver : PyVal) (name : string) : Eff World PyVal :=
  if is_None receiver
  then raise (AttributeError ("'NoneType' object has no attribute " +:+ name))
  else emit (EvMethod receiver name) ;; on_self (invoke receiver name).

(** [self.name()] for a hook the user class may override. *)
Definition call_hook (name : string) (body : Eff Instance PyVal)
    : Eff World PyVal :=
  self ← this;
  emit (EvHook name self) ;; on_self body.

(** The two messages the module raises [LocustError] with. *)
Definition no_client_message : string :=
  "No client instantiated. Did you intend to inherit from HttpUser?".
Definition no_host_message : string :=
  "You must specify the base host. Either in the host attribute in the User class, or on the command line using the --host option.".

(** ** class NoClientWarningRaiser *)

Section NoClientWarningRaiser.
(** What the interpreter itself provides on every object ([__class__],
    [__init__], [__module__], ...); only which names it holds matters. *)
Variable builtin_ns : Dict.

Definition object_class : Class := MkClass "object" [] builtin_ns.

(** [def __getattr__(self, _): raise LocustError(...)] *)
Definition NoClientWarningRaiser___getattr__ (_ : string) : outcome PyVal :=
  Raised (LocustError no_client_message).

Definition NoClientWarningRaiser_body : Dict :=
  <["__getattr__" := PyFunc "NoClientWarningRaiser.__getattr__"]>
  (<["__doc__" := PyStr "The purpose of this class is to emit a sensible error message for old test scripts that inherit from User, and expects there to be an HTTP client under the client attribute."]> ∅).

Definition NoClientWarningRaiser_class : Class :=
  MkClass "NoClientWarningRaiser" [object_class] NoClientWarningRaiser_body.

(** Attribute access on an instance of the class: Python calls
    [__getattr__] only when ordinary lookup finds nothing. *)
Definition NoClientWarningRaiser_getattr (o : Instance) (k : string)
    : outcome PyVal :=
  match instance_lookup o k with
  | Some v => Normal v
  | None => NoClientWarningRaiser___getattr__ k
  end.

(** [NoClientWarningRaiser()]: the class has no [__init__], a new
    instance has an empty [__dict__]. *)
Definition NoClientWarningRaiser_new : Instance :=
  MkInstance NoClientWarningRaiser_class ∅.
End NoClientWarningRaiser.

(** ** class UserMeta *)

Section UserMeta.
(** [locust.user.task.get_tasks_from_base_classes] and
    [locust.util.deprecation.check_for_deprecated_task_set_attribute]
    live in other modules; each returns or raises. *)
Variable get_tasks_from_base_classes : list Class → Dict → outcome PyVal.
Variable check_for_deprecated_task_set_attribute : Dict → outcome unit.

(** [UserMeta.__new__(mcs, classname, bases, class_dict)];
    [type.__new__] builds the class from the namespace it is handed.
    What the interpreter adds to that namespace on its own ([__doc__],
    [__module__], ...) is not modelled: the namespace of the model is
    that of the class on the names the program declares. *)
Definition UserMeta_new (classname : string) (bases : list Class)
    (class_dict : Dict) : Eff (list Event) Class :=
  tasks ← (record (EvGetTasks classname) ;;
           from_outcome (get_tasks_from_base_classes bases class_dict));
  let class_dict := <["tasks" := tasks]> class_dict in
  let class_dict :=
    if negb (py_truthy (default PyNone (class_dict !! "abstract")))
    then <["abstract" := PyBool false]> class_dict
    else class_dict in
  record (EvCheckDeprecated classname) ;;
  from_outcome (check_for_deprecated_task_set_attribute class_dict) ;;
  mret (MkClass classname bases class_dict).
End UserMeta.

(** The body of [class User], as the class statement hands it to the
    metaclass (docstring abridged). *)
Definition User_body : Dict :=
  list_to_map [
    ("__doc__", PyStr "Represents a user which is to be hatched and attack the system that is to be load tested.");
    ("host", PyNone);
    ("min_wait", PyNone);
    ("max_wait", PyNone);
    ("wait_time", PyNone);
    ("wait_function", PyNone);
    ("tasks", PyList []);
    ("weight", PyInt 10);
    ("abstract", PyBool true);
    ("client", PyObj "NoClientWarningRaiser" 0);
    ("_state", PyNone);
    ("_greenlet", PyNone);
    ("_taskset_instance", PyNone);
    ("__init__", PyFunc "User.__init__");
    ("on_start", PyFunc "User.on_start");
    ("on_stop", PyFunc "User.on_stop");
    ("run", PyFunc "User.run");
    ("wait", PyFunc "User.wait");
    ("start", PyFunc "User.start");
    ("stop", PyFunc "User.stop")
  ].

(** The body of [class HttpUser(User)] (docstring abridged). *)
Definition HttpUser_body : Dict :=
  list_to_map [
    ("__doc__", PyStr "Represents an HTTP user which is to be hatched and attack the system that is to be load tested.");
    ("abstract", PyBool true);
    ("client", PyNone);
    ("__init__", PyFunc "HttpUser.__init__")
  ].

(** ** class User and class HttpUser *)

Section User.
(** The state constants of [locust.user.task]. *)
Variables LOCUST_STATE_RUNNING LOCUST_STATE_WAITING LOCUST_STATE_STOPPING
  : string.
(** The hooks [on_start] and [on_stop] of the receiver's class. *)
Variables on_start on_stop : Eff Instance PyVal.
(** Methods of objects of other modules (the task set), run on the user. *)
Variable invoke : PyVal → string → Eff Instance PyVal.
(** [DefaultTaskSet(self)] *)
Variable DefaultTaskSet : Instance → PyVal.
(** The handle [gevent_group.spawn(run_user, self)] returns. *)
Variable spawn : PyVal → Instance → PyVal.
(** Attributes of objects of other modules (the environment). *)
Variable ext_getattr : PyVal → string → outcome PyVal.
(** [HttpSession(base_url=.., request_success=.., request_failure=..)] *)
Variable HttpSession : PyVal → PyVal → PyVal → PyVal.
Variable builtin_ns : Dict.

(** [v.k] for a value read from an attribute. *)
Definition getattr_value (v : PyVal) (k : string) : outcome PyVal :=
  match v with
  | PyNone =>
      Raised (AttributeError ("'NoneType' object has no attribute " +:+ k))
  | PyObj cls _ =>
      if String.eqb cls "NoClientWarningRaiser"
      then NoClientWarningRaiser_getattr
             (NoClientWarningRaiser_new builtin_ns) k
      else ext_getattr v k
  | _ => ext_getattr v k
  end.

(** [def __init__(self, environment)] *)
Definition User_init (environment : PyVal) : Eff World PyVal :=
  setattr_self "environment" environment ;;
  mret PyNone.

(** [def on_start(self): pass] and [def on_stop(self): pass] *)
Definition User_on_start : Eff Instance PyVal := mret PyNone.
Definition User_on_stop : Eff Instance PyVal := mret PyNone.

(** [except (GreenletExit, StopUser)] *)
Definition is_termination (e : Exn) : bool :=
  isinstance e "GreenletExit" || isinstance e "StopUser".

(** [def run(self)] *)
Definition User_run : Eff World PyVal :=
  setattr_self "_state" (PyStr LOCUST_STATE_RUNNING) ;;
  self ← this;
  setattr_self "_taskset_instance" (DefaultTaskSet self) ;;
  try_except
    (call_hook "on_start" on_start ;;
     taskset ← getattr_self "_taskset_instance";
     call_method invoke taskset "run")
    is_termination
    (λ _, call_hook "on_stop" on_stop) ;;
  mret PyNone.

(** [def wait(self)] *)
Definition User_wait : Eff World PyVal :=
  taskset ← getattr_self "_taskset_instance";
  call_method invoke taskset "wait" ;;
  mret PyNone.

(** [def start(self, gevent_group)] *)
Definition User_start (gevent_group : PyVal) : Eff World PyVal :=
  self ← this;
  emit (EvSpawn gevent_group) ;;
  setattr_self "_greenlet" (spawn gevent_group self) ;;
  getattr_self "_greenlet".

(** [def stop(self, gevent_group, force=False)]; a call that takes
    neither branch falls off the end and returns [None]. *)
Definition User_stop (gevent_group force : PyVal) : Eff World PyVal :=
  immediately ←
    (if py_truthy force then mret true
     else state ← getattr_self "_state";
          mret (py_eq state (PyStr LOCUST_STATE_WAITING)));
  if (immediately : bool) then
    greenlet ← getattr_self "_greenlet";
    emit (EvKillone gevent_group greenlet) ;;
    mret (PyBool true)
  else
    state ← getattr_self "_state";
    if py_eq state (PyStr LOCUST_STATE_RUNNING) then
      setattr_self "_state" (PyStr LOCUST_STATE_STOPPING) ;;
      mret (PyBool false)
    else mret PyNone.

(** [self.client.k] *)
Definition client_attr (k : string) : Eff World PyVal :=
  client ← getattr_self "client";
  from_outcome (getattr_value client k).

(** [HttpUser.__init__(self, *args, **kwargs)], called with the
    environment the base constructor expects. *)
Definition HttpUser_init (environment : PyVal) : Eff World PyVal :=
  User_init environment ;;
  host ← getattr_self "host";
  if is_None host then
    raise (LocustError no_host_message)
  else
    base_url ← getattr_self "host";
    env ← getattr_self "environment";
    events ← from_outcome (getattr_value env "events");
    request_success ← from_outcome (getattr_value events "request_success");
    env ← getattr_self "environment";
    events ← from_outcome (getattr_value env "events");
    request_failure ← from_outcome (getattr_value events "request_failure");
    emit (EvHttpSession base_url request_success request_failure) ;;
    let session := HttpSession base_url request_success request_failure in
    emit (EvSetAttr session "trust_env" (PyBool false)) ;;
    setattr_self "client" session ;;
    mret PyNone.
End User.

(** ** A concrete load test, to run the definitions on

    The state constants as locust spells them, a resolver that takes the
    declared task list as it stands, a deprecation check that accepts every
    class, a group and an environment from other modules. *)

Definition demo_builtins : Dict :=
  {[ "__init__" := PyFunc "object.__init__" ]}.

Definition demo_resolver (bases : list Class) (class_dict : Dict)
    : outcome PyVal :=
  Normal (default (PyList []) (class_dict !! "tasks")).

Definition demo_check (class_dict : Dict) : outcome unit := Normal tt.

(** [class User] and [class HttpUser(User)] as the metaclass builds them
    with [demo_resolver]. *)
Definition demo_User : Class :=
  MkClass "User" [object_class demo_builtins]
    (<["tasks" := PyList []]> User_body).

Definition demo_HttpUser : Class :=
  MkClass "HttpUser" [demo_User] (<["tasks" := PyList []]> HttpUser_body).

(** [class MyUser(User): pass] and
    [class WebUser(HttpUser): host = "http://127.0.0.1:1234"] *)
Definition demo_MyUser : Class :=
  MkClass "MyUser" [demo_User]
    (<["abstract" := PyBool false]> (<["tasks" := PyList []]> ∅)).

Definition demo_WebUser_body : Dict :=
  {[ "host" := PyStr "http://127.0.0.1:1234" ]}.

Definition demo_WebUser : Class :=
  MkClass "WebUser" [demo_HttpUser]
    (<["abstract" := PyBool false]>
       (<["tasks" := PyList []]> demo_WebUser_body)).

Definition demo_group : PyVal := PyObj "Group" 0.
Definition demo_environment : PyVal := PyObj "Environment" 0.

Definition demo_spawn (group : PyVal) (self : Instance) : PyVal :=
  PyObj "Greenlet" 1.

Definition demo_DefaultTaskSet (self : Instance) : PyVal :=
  PyObj "DefaultTaskSet" 2.

Definition demo_ext_getattr (v : PyVal) (k : string) : outcome PyVal :=
  match v with
  | PyObj cls _ =>
      if String.eqb cls "Environment" && String.eqb k "events"
      then Normal (PyObj "Events" 3)
      else if String.eqb cls "Events"
      then Normal (PyObj "EventHook" (String.length k))
      else Raised (AttributeError k)
  | _ => Raised (AttributeError k)
  end.

Definition demo_HttpSession (base_url success failure : PyVal) : PyVal :=
  PyObj "HttpSession" 4.

(** A freshly allocated instance of a class, before [__init__] runs. *)
Definition fresh (c : Class) : World := MkWorld (MkInstance c ∅) [].

(** A task set whose loop ends with the given outcome; its [wait] returns. *)
Definition demo_invoke (loop : outcome PyVal) (receiver : PyVal)
    (name : string) : Eff Instance PyVal :=
  if String.eqb name "run" then from_outcome loop else mret PyNone.

(** Hooks for the examples: a setup hook that ends the user at once with
    [raise StopUser()], and a teardown hook during which the greenlet is
    killed, so that [GreenletExit] is raised inside it. *)
Definition demo_setup_stops : Eff Instance PyVal := raise StopUser.
Definition demo_teardown_killed : Eff Instance PyVal := raise GreenletExit.
(** A setup hook and a task loop that fail with an ordinary error. *)
Definition demo_failure : Exn :=
  MkExn ["ValueError"; "Exception"; "BaseException"; "object"] "bad input".
Definition demo_setup_fails : Eff Instance PyVal := raise demo_failure.

(** ** Vocabulary for the statements about the task list

    How often the trace records a call of the task resolver. *)
Fixpoint resolutions (log : list Event) : nat :=
  match log with
  | [] => 0
  | EvGetTasks _ :: log' => S (resolutions log')
  | _ :: log' => resolutions log'
  end.

(** A computation keeps a relation between the world before and after. *)
Definition respects {A} (R : World → World → Prop) (m : Eff World A) : Prop :=
  ∀ w : World, R w (m w).2.

(** No call of the resolver is added to the trace. *)
Definition same_resolutions (w w' : World) : Prop :=
  resolutions (w_log w') = resolutions (w_log w).

(** The receiver keeps its class and what [self.k] reads. *)
Definition same_attr (k : string) (w w' : World) : Prop :=
  inst_class (w_self w') = inst_class (w_self w)
  ∧ instance_lookup (w_self w') k = instance_lookup (w_self w) k.

(** ** Vocabulary for the statements about [run]

    The receiver as [run] hands it to [on_start]: [_state] set to running
    and [_taskset_instance] to a new [DefaultTaskSet]. *)
Definition entered (RUNNING : string) (DefaultTaskSet : Instance → PyVal)
    (self : Instance) : Instance :=
  let self := instance_set self "_state" (PyStr RUNNING) in
  instance_set self "_taskset_instance" (DefaultTaskSet self).

(** [raised_in_run on_start invoke o0 e o calls]: started on [o0], the
    setup hook or the task loop raises [e], leaving the receiver as [o]
    after the calls [calls]. *)
Inductive raised_in_run (on_start : Eff Instance PyVal)
    (invoke : PyVal → string → Eff Instance PyVal) (o0 : Instance) (e : Exn)
    : Instance → list Event → Prop :=
  | raised_in_setup (o : Instance) :
      on_start o0 = (Raised e, o) →
      raised_in_run on_start invoke o0 e o [EvHook "on_start" o0]
  | raised_in_loop (v taskset : PyVal) (o1 o : Instance) :
      on_start o0 = (Normal v, o1) →
      instance_lookup o1 "_taskset_instance" = Some taskset →
      is_None taskset = false →
      invoke taskset "run" o1 = (Raised e, o) →
      raised_in_run on_start invoke o0 e o
        [EvHook "on_start" o0; EvMethod taskset "run"].

(** What the caller of [run] sees of the teardown hook's outcome. *)
Definition after_teardown (r : outcome PyVal) : outcome PyVal :=
  match r with
  | Normal _ => Normal PyNone
  | Raised e => Raised e
  end.

(** A user of [MyUser], started in [demo_group]. *)
Definition demo_started : World :=
  (User_start demo_spawn demo_group
     (User_init demo_environment (fresh demo_MyUser)).2).2.

(** The same user while its task set sleeps, and while a task runs. *)
Definition demo_in_state (state : string) : World :=
  MkWorld (instance_set (w_self demo_started) "_state" (PyStr state))
          (w_log demo_started).

(** The task set of the examples, a loop that is killed, a loop that
    fails, and the receiver as [run] hands it to the hooks. *)
Definition demo_taskset : PyVal := PyObj "DefaultTaskSet" 2.
Definition demo_loop_killed : PyVal → string → Eff Instance PyVal :=
  demo_invoke (Raised GreenletExit).
Definition demo_loop_fails : PyVal → string → Eff Instance PyVal :=
  demo_invoke (Raised demo_failure).
Definition demo_entered : Instance :=
  entered "running" demo_DefaultTaskSet (w_self (fresh demo_MyUser)).
Definition demo_calls : list Event :=
  [EvHook "on_start" demo_entered; EvMethod demo_taskset "run"].

(** The host of [WebUser] and the hook both event attributes resolve to. *)
Definition demo_url : PyVal := PyStr "http://127.0.0.1:1234".
Definition demo_hook : PyVal := PyObj "EventHook" 15.

(** ** Vocabulary for the properties of the metaclass and of old scripts

    The namespace [UserMeta.__new__] hands to the deprecation check and to
    [type.__new__], given what the resolver returned. *)
Definition built_namespace (tasks : PyVal) (class_dict : Dict) : Dict :=
  let class_dict := <["tasks" := tasks]> class_dict in
  if negb (py_truthy (default PyNone (class_dict !! "abstract")))
  then <["abstract" := PyBool false]> class_dict
  else class_dict.


(** The setup hook of an old test script that inherits from [User] and
    expects an HTTP client: [def on_start(self): self.client.k]. *)
Definition setup_reads_client (ext_getattr : PyVal → string → outcome PyVal)
    (builtin_ns : Dict) (k : string) : Eff Instance PyVal := λ o,
  ((client_attr ext_getattr builtin_ns k (MkWorld o [])).1, o).

(** A resolver that rejects the declared tasks, a setup hook that drops
    the task set, and a task loop that returns. *)
Definition demo_resolver_fails (bases : list Class) (class_dict : Dict)
    : outcome PyVal := Raised demo_failure.
Definition demo_setup_clears : Eff Instance PyVal := λ o,
  (Normal PyNone, instance_set o "_taskset_instance" PyNone).
Definition demo_loop_returns : PyVal → string → Eff Instance PyVal :=
  demo_invoke (Normal PyNone).
(** A group whose greenlets are numbered after it. *)
Definition demo_spawn_numbered (group : PyVal) (self : Instance) : PyVal :=
  match group with
  | PyObj _ id => PyObj "Greenlet" (S id)
  | _ => PyObj "Greenlet" 0
  end.

(** * Theorems *)

Ltac eff_unfold :=
  repeat progress
    unfold mbind, eff_bind, mret, eff_ret, raise, from_outcome, try_except,
      call_hook, call_method, getattr_self, setattr_self, emit, on_self,
      this, record in *.

(** An event is none of the listed ones. *)
Ltac not_among :=
  repeat (apply not_elem_of_cons; split; [discriminate |]);
  apply not_elem_of_nil.

Lemma py_eq_str_refl (s : string) : py_eq (PyStr s) (PyStr s) = true.
Proof. simpl. apply String.eqb_refl. Qed.

Lemma py_eq_str_ne (s t : string) :
  s ≠ t → py_eq (PyStr s) (PyStr t) = false.
Proof. intros H. simpl. by apply String.eqb_neq. Qed.

Lemma instance_lookup_set_eq (o : Instance) (k : string) (v : PyVal) :
  instance_lookup (instance_set o k v) k = Some v.
Proof.
  unfold instance_lookup, instance_set. simpl. by rewrite lookup_insert_eq.
Qed.

Lemma instance_lookup_set_ne (o : Instance) (k j : string) (v : PyVal) :
  k ≠ j → instance_lookup (instance_set o k v) j = instance_lookup o j.
Proof.
  intros H. unfold instance_lookup, instance_set. simpl.
  by rewrite lookup_insert_ne.
Qed.

(** The metaclass builds the demo classes. *)
Example demo_User_built :
  UserMeta_new demo_resolver demo_check "User" [object_class demo_builtins]
    User_body [] =
  (Normal demo_User, [EvGetTasks "User"; EvCheckDeprecated "User"]).
Proof. reflexivity. Qed.

Example demo_MyUser_built :
  UserMeta_new demo_resolver demo_check "MyUser" [demo_User] ∅ [] =
  (Normal demo_MyUser, [EvGetTasks "MyUser"; EvCheckDeprecated "MyUser"]).
Proof. reflexivity. Qed.

(** ** [User.start] and [User.stop] *)

Section Stop.
Variables RUNNING WAITING STOPPING : string.
Variable spawn : PyVal → Instance → PyVal.

(** After [start], the handle the group returned is what [_greenlet]
    reads, and [start] returns it. *)
Lemma start_stores_handle (w : World) (group : PyVal) :
  let handle := spawn group (w_self w) in
  let w' := MkWorld (instance_set (w_self w) "_greenlet" handle)
                    (w_log w ++ [EvSpawn group]) in
  User_start spawn group w = (Normal handle, w')
  ∧ instance_lookup (w_self w') "_greenlet" = Some handle.
Proof.
  simpl. unfold User_start. eff_unfold. simpl.
  rewrite instance_lookup_set_eq. split; reflexivity.
Qed.

(** What [stop] does when neither branch applies, for any state value. *)
Lemma stop_falls_through (w : World) (group force state : PyVal) :
  py_truthy force = false →
  instance_lookup (w_self w) "_state" = Some state →
  py_eq state (PyStr WAITING) = false →
  py_eq state (PyStr RUNNING) = false →
  User_stop RUNNING WAITING STOPPING group force w = (Normal PyNone, w).
Proof.
  intros Hf Hs Hw Hr. unfold User_stop. eff_unfold.
  rewrite Hf, Hs. simpl. rewrite Hw, Hs. simpl. rewrite Hr. reflexivity.
Qed.

(** C1: a forced stop, or a stop while the state is waiting, calls
    [killone] on the stored greenlet handle and returns [True]; nothing
    else happens. *)
Theorem stop_kills_immediately (w : World) (group force greenlet : PyVal) :
  instance_lookup (w_self w) "_greenlet" = Some greenlet →
  py_truthy force = true
    ∨ instance_lookup (w_self w) "_state" = Some (PyStr WAITING) →
  User_stop RUNNING WAITING STOPPING group force w =
    (Normal (PyBool true),
     MkWorld (w_self w) (w_log w ++ [EvKillone group greenlet])).
Proof.
  intros Hg Hc. unfold User_stop. eff_unfold.
  destruct (py_truthy force) eqn:Hf.
  - simpl. rewrite Hg. reflexivity.
  - destruct Hc as [Hc | Hc]; [discriminate |].
    rewrite Hc. simpl. rewrite String.eqb_refl. rewrite Hg. reflexivity.
Qed.

(** C2: an unforced stop while the state is running sets [_state] to
    stopping and returns [False]; the trace gains no event (no
    [killone]), the class and every other attribute stay as they were. *)
Theorem stop_running_defers (w : World) (group force : PyVal) :
  RUNNING ≠ WAITING →
  py_truthy force = false →
  instance_lookup (w_self w) "_state" = Some (PyStr RUNNING) →
  ∃ w' : World,
    User_stop RUNNING WAITING STOPPING group force w
      = (Normal (PyBool false), w')
    ∧ w_log w' = w_log w
    ∧ instance_lookup (w_self w') "_state" = Some (PyStr STOPPING)
    ∧ inst_class (w_self w') = inst_class (w_self w)
    ∧ inst_dict (w_self w')
        = <["_state" := PyStr STOPPING]> (inst_dict (w_self w))
    ∧ ∀ k : string, k ≠ "_state" →
        inst_dict (w_self w') !! k = inst_dict (w_self w) !! k
        ∧ instance_lookup (w_self w') k = instance_lookup (w_self w) k.
Proof.
  intros Hne Hf Hs.
  exists (MkWorld (instance_set (w_self w) "_state" (PyStr STOPPING)) (w_log w)).
  split.
  - unfold User_stop. eff_unfold. rewrite Hf, Hs. simpl.
    rewrite (proj2 (String.eqb_neq RUNNING WAITING) Hne).
    rewrite Hs. simpl. rewrite String.eqb_refl. reflexivity.
  - simpl. repeat split.
    + apply instance_lookup_set_eq.
    + by rewrite lookup_insert_ne.
    + by apply instance_lookup_set_ne.
Qed.

(** C3: an unforced stop of a user whose state is [None] (never run) or
    already stopping takes neither branch: no [killone], no change of
    state, and the value returned is [None], not [False]. *)
Theorem stop_noop_returns_None (w : World) (group force state : PyVal) :
  STOPPING ≠ WAITING → STOPPING ≠ RUNNING →
  py_truthy force = false →
  instance_lookup (w_self w) "_state" = Some state →
  state = PyNone ∨ state = PyStr STOPPING →
  User_stop RUNNING WAITING STOPPING group force w = (Normal PyNone, w)
  ∧ User_stop RUNNING WAITING STOPPING group force w
      ≠ (Normal (PyBool false), w).
Proof.
  intros Hw Hr Hf Hs Hst.
  assert (Hstop : User_stop RUNNING WAITING STOPPING group force w
                  = (Normal PyNone, w)).
  { apply (stop_falls_through w group force state Hf Hs);
      destruct Hst as [-> | ->]; try reflexivity; by apply py_eq_str_ne. }
  split; [exact Hstop |]. rewrite Hstop. discriminate.
Qed.
End Stop.

(** ** [User.run] *)

Section Run.
Variable RUNNING : string.
Variables on_start on_stop : Eff Instance PyVal.
Variable invoke : PyVal → string → Eff Instance PyVal.
Variable DefaultTaskSet : Instance → PyVal.

Local Abbreviation run :=
  (User_run RUNNING on_start on_stop invoke DefaultTaskSet).
Local Abbreviation enter := (entered RUNNING DefaultTaskSet).

Lemma entered_state (o : Instance) :
  instance_lookup (enter o) "_state" = Some (PyStr RUNNING).
Proof.
  unfold entered. rewrite instance_lookup_set_ne by done.
  apply instance_lookup_set_eq.
Qed.

(** [run] up to the end of the [try] statement, when its body raises. *)
Lemma run_on_raise (w : World) (e : Exn) (o : Instance) (calls : list Event) :
  raised_in_run on_start invoke (enter (w_self w)) e o calls →
  run w =
    if is_termination e
    then (let '(r, o') := on_stop o in
          (after_teardown r,
           MkWorld o' ((w_log w ++ calls) ++ [EvHook "on_stop" o])))
    else (Raised e, MkWorld o (w_log w ++ calls)).
Proof.
  intros H. unfold User_run. eff_unfold. simpl.
  fold (enter (w_self w)).
  destruct H as [o H | v ts o1 o H1 H2 H3 H4].
  - rewrite H. simpl. destruct (is_termination e); [| reflexivity].
    simpl. destruct (on_stop o) as [[?|?] ?]; reflexivity.
  - rewrite H1. simpl. rewrite H2, H3. simpl. rewrite H4. simpl.
    destruct (is_termination e); simpl.
    + destruct (on_stop o) as [[?|?] ?]; simpl;
        rewrite <- !app_assoc; reflexivity.
    + rewrite <- !app_assoc; reflexivity.
Qed.

(** The first call [run] makes is the setup hook, on the receiver with
    its state set. *)
Lemma run_calls_setup_first (w : World) :
  ∃ rest : list Event,
    w_log (run w).2 = w_log w ++ EvHook "on_start" (enter (w_self w)) :: rest.
Proof.
  unfold User_run. eff_unfold. simpl. fold (enter (w_self w)).
  repeat (case_match; simplify_eq/=); rewrite <- ?app_assoc; eauto.
Qed.

(** C4 (amended): the first call of [run] is the setup hook, on a
    receiver whose [_state] is running, before the task loop; when the
    setup hook or the task loop raises a termination signal ([StopUser]
    or [GreenletExit]), [run] calls the teardown hook, as its last call,
    and does not surface the signal it caught: it returns [None] when the
    teardown hook returns, and raises what the teardown hook raises
    otherwise. *)
Theorem run_teardown_on_termination (w : World) :
  instance_lookup (enter (w_self w)) "_state" = Some (PyStr RUNNING)
  ∧ (∃ rest : list Event,
       w_log (run w).2
         = w_log w ++ EvHook "on_start" (enter (w_self w)) :: rest)
  ∧ ∀ (e : Exn) (o : Instance) (calls : list Event),
      raised_in_run on_start invoke (enter (w_self w)) e o calls →
      is_termination e = true →
      (∃ rest : list Event,
         calls = EvHook "on_start" (enter (w_self w)) :: rest
         ∧ ∀ o' : Instance, EvHook "on_stop" o' ∉ rest)
      ∧ (∃ (r : outcome PyVal) (o' : Instance),
           on_stop o = (r, o')
           ∧ run w = (after_teardown r,
                      MkWorld o' (w_log w ++ calls ++ [EvHook "on_stop" o])))
      ∧ (∀ (v : PyVal) (o' : Instance),
           on_stop o = (Normal v, o') →
           run w = (Normal PyNone,
                    MkWorld o' (w_log w ++ calls ++ [EvHook "on_stop" o]))).
Proof.
  split; [apply entered_state |]. split; [apply run_calls_setup_first |].
  intros e o calls Hraise Hterm.
  pose proof (run_on_raise w e o calls Hraise) as Hrun.
  rewrite Hterm in Hrun. rewrite <- app_assoc in Hrun. split.
  - destruct Hraise; eexists; (split; [reflexivity |]); intros o'.
    + not_among.
    + not_among.
  - split.
    + destruct (on_stop o) as [r o'] eqn:Hstop. by exists r, o'.
    + intros v o' Hstop. by rewrite Hstop in Hrun.
Qed.

(** C5: an exception that is not a termination signal, raised by the
    setup hook or by the task loop, comes out of [run] as it is; the
    teardown hook is not called, and neither the setup hook nor the
    task loop is called a second time. *)
Theorem run_propagates_failure (w : World) (e : Exn) (o : Instance)
    (calls : list Event) :
  raised_in_run on_start invoke (enter (w_self w)) e o calls →
  is_termination e = false →
  run w = (Raised e, MkWorld o (w_log w ++ calls))
  ∧ (∀ o' : Instance, EvHook "on_stop" o' ∉ calls)
  ∧ ((calls = [EvHook "on_start" (enter (w_self w))])
     ∨ (∃ taskset : PyVal,
         calls = [EvHook "on_start" (enter (w_self w));
                  EvMethod taskset "run"])).
Proof.
  intros Hraise Hterm. pose proof (run_on_raise w e o calls Hraise) as Hrun.
  rewrite Hterm in Hrun. split; [exact Hrun |].
  destruct Hraise; (split; [intros o'; not_among | eauto]).
Qed.
End Run.

(** ** Relations every step of a method keeps *)

Section Respects.
Variable R : World → World → Prop.
Hypothesis R_refl : ∀ w, R w w.
Hypothesis R_trans : ∀ w1 w2 w3, R w1 w2 → R w2 w3 → R w1 w3.

Lemma respects_ret {A} (a : A) : respects R (mret a).
Proof. intros w. apply R_refl. Qed.

Lemma respects_raise {A} (e : Exn) : respects R (raise e : Eff World A).
Proof. intros w. apply R_refl. Qed.

Lemma respects_from_outcome {A} (r : outcome A) :
  respects R (from_outcome r).
Proof. intros w. apply R_refl. Qed.

Lemma respects_this : respects R this.
Proof. intros w. apply R_refl. Qed.

Lemma respects_getattr (k : string) : respects R (getattr_self k).
Proof.
  intros w. unfold getattr_self. destruct (instance_lookup _ _); apply R_refl.
Qed.

Lemma respects_bind {A B} (m : Eff World A) (k : A → Eff World B) :
  respects R m → (∀ a, respects R (k a)) → respects R (m ≫= k).
Proof.
  intros Hm Hk w. specialize (Hm w). unfold mbind, eff_bind.
  destruct (m w) as [[a|e] w1]; simpl in *; [| exact Hm].
  eapply R_trans; [exact Hm | apply Hk].
Qed.

Lemma respects_try {A} (body : Eff World A) (handles : Exn → bool)
    (handler : Exn → Eff World A) :
  respects R body → (∀ e, respects R (handler e)) →
  respects R (try_except body handles handler).
Proof.
  intros Hb Hh w. specialize (Hb w). unfold try_except.
  destruct (body w) as [[a|e] w1]; simpl in *; [exact Hb |].
  destruct (handles e); [| exact Hb].
  eapply R_trans; [exact Hb | apply Hh].
Qed.

Lemma respects_if {A} (b : bool) (m1 m2 : Eff World A) :
  respects R m1 → respects R m2 → respects R (if b then m1 else m2).
Proof. by destruct b. Qed.
End Respects.

Lemma resolutions_app (l1 l2 : list Event) :
  resolutions (l1 ++ l2) = resolutions l1 + resolutions l2.
Proof.
  induction l1 as [| ev l1 IH]; [reflexivity |].
  destruct ev; simpl; rewrite IH; reflexivity.
Qed.

Lemma same_resolutions_refl (w : World) : same_resolutions w w.
Proof. reflexivity. Qed.

Lemma same_resolutions_trans (w1 w2 w3 : World) :
  same_resolutions w1 w2 → same_resolutions w2 w3 → same_resolutions w1 w3.
Proof. unfold same_resolutions. congruence. Qed.

Lemma same_attr_refl (k : string) (w : World) : same_attr k w w.
Proof. by split. Qed.

Lemma same_attr_trans (k : string) (w1 w2 w3 : World) :
  same_attr k w1 w2 → same_attr k w2 w3 → same_attr k w1 w3.
Proof. unfold same_attr. intros [??] [??]. split; congruence. Qed.

Lemma quiet_setattr (k : string) (v : PyVal) :
  respects same_resolutions (setattr_self k v).
Proof. intros w. reflexivity. Qed.

Lemma quiet_on_self {A} (m : Eff Instance A) :
  respects same_resolutions (on_self m).
Proof. intros w. unfold on_self. by destruct (m (w_self w)). Qed.

Lemma quiet_emit (ev : Event) :
  resolutions [ev] = 0 → respects same_resolutions (emit ev).
Proof.
  intros H w. unfold same_resolutions, emit. simpl.
  rewrite resolutions_app, H. lia.
Qed.

Lemma keeps_attr_setattr (k j : string) (v : PyVal) :
  k ≠ j → respects (same_attr k) (setattr_self j v).
Proof.
  intros H w. split; [reflexivity |]. simpl. by apply instance_lookup_set_ne.
Qed.

Lemma keeps_attr_emit (k : string) (ev : Event) :
  respects (same_attr k) (emit ev).
Proof. intros w. by split. Qed.

Create HintDb quiet.
#[local] Hint Resolve same_resolutions_refl same_resolutions_trans
  same_attr_refl same_attr_trans : quiet.
#[local] Hint Resolve respects_ret respects_raise respects_from_outcome
  respects_this respects_getattr respects_bind respects_try respects_if
  quiet_setattr quiet_on_self quiet_emit keeps_attr_setattr keeps_attr_emit
  : quiet.

Ltac respects_tac :=
  repeat first
    [ progress intros
    | apply respects_bind | apply respects_try | apply respects_if
    | apply respects_ret | apply respects_raise | apply respects_from_outcome
    | apply respects_this | apply respects_getattr
    | apply quiet_setattr | apply quiet_on_self
    | apply quiet_emit; reflexivity
    | apply keeps_attr_setattr; congruence | apply keeps_attr_emit
    | solve [eauto with quiet] ].

Section Quiet.
Variables RUNNING WAITING STOPPING : string.
Variables on_start on_stop : Eff Instance PyVal.
Variable invoke : PyVal → string → Eff Instance PyVal.
Variable DefaultTaskSet : Instance → PyVal.
Variable spawn : PyVal → Instance → PyVal.
Variable ext_getattr : PyVal → string → outcome PyVal.
Variable HttpSession : PyVal → PyVal → PyVal → PyVal.
Variable builtin_ns : Dict.

Lemma quiet_call_method (v : PyVal) (name : string) :
  respects same_resolutions (call_method invoke v name).
Proof. unfold call_method. respects_tac. Qed.

Lemma quiet_User_init (env : PyVal) :
  respects same_resolutions (User_init env).
Proof. unfold User_init. respects_tac. Qed.

Lemma quiet_User_run :
  respects same_resolutions
    (User_run RUNNING on_start on_stop invoke DefaultTaskSet).
Proof.
  pose proof quiet_call_method.
  unfold User_run, call_hook. respects_tac.
Qed.

Lemma quiet_User_wait : respects same_resolutions (User_wait invoke).
Proof. pose proof quiet_call_method. unfold User_wait. respects_tac. Qed.

Lemma quiet_User_start (group : PyVal) :
  respects same_resolutions (User_start spawn group).
Proof. unfold User_start. respects_tac. Qed.

Lemma quiet_User_stop (group force : PyVal) :
  respects same_resolutions (User_stop RUNNING WAITING STOPPING group force).
Proof. unfold User_stop. respects_tac. Qed.

Lemma quiet_HttpUser_init (env : PyVal) :
  respects same_resolutions
    (HttpUser_init ext_getattr HttpSession builtin_ns env).
Proof. pose proof quiet_User_init. unfold HttpUser_init. respects_tac. Qed.

(** Frame lemmas: which attributes a method can change. *)
Lemma keeps_attr_User_init (k : string) (env : PyVal) :
  k ≠ "environment" → respects (same_attr k) (User_init env).
Proof. intros. unfold User_init. respects_tac. Qed.

Lemma keeps_attr_User_start (k : string) (group : PyVal) :
  k ≠ "_greenlet" → respects (same_attr k) (User_start spawn group).
Proof. intros. unfold User_start. respects_tac. Qed.

Lemma keeps_attr_User_stop (k : string) (group force : PyVal) :
  k ≠ "_state" →
  respects (same_attr k) (User_stop RUNNING WAITING STOPPING group force).
Proof. intros. unfold User_stop. respects_tac. Qed.

Lemma keeps_attr_HttpUser_init (k : string) (env : PyVal) :
  k ≠ "environment" → k ≠ "client" →
  respects (same_attr k)
    (HttpUser_init ext_getattr HttpSession builtin_ns env).
Proof.
  intros. pose proof (keeps_attr_User_init k).
  unfold HttpUser_init. respects_tac.
Qed.
End Quiet.

(** ** [UserMeta.__new__] *)

Section Meta.
Variable get_tasks_from_base_classes : list Class → Dict → outcome PyVal.
Variable check_for_deprecated_task_set_attribute : Dict → outcome unit.
Variables RUNNING WAITING STOPPING : string.
Variables on_start on_stop : Eff Instance PyVal.
Variable invoke : PyVal → string → Eff Instance PyVal.
Variable DefaultTaskSet : Instance → PyVal.
Variable spawn : PyVal → Instance → PyVal.
Variable ext_getattr : PyVal → string → outcome PyVal.
Variable HttpSession : PyVal → PyVal → PyVal → PyVal.
Variable builtin_ns : Dict.

Local Abbreviation meta_new :=
  (UserMeta_new get_tasks_from_base_classes
     check_for_deprecated_task_set_attribute).

(** The class a successful call returns, and the trace it leaves. *)
Lemma UserMeta_new_inv (classname : string) (bases : list Class)
    (class_dict : Dict) (log log' : list Event) (c : Class) :
  meta_new classname bases class_dict log = (Normal c, log') →
  ∃ tasks : PyVal,
    get_tasks_from_base_classes bases class_dict = Normal tasks
    ∧ log' = log ++ [EvGetTasks classname; EvCheckDeprecated classname]
    ∧ c = MkClass classname bases
            (if negb (py_truthy (default PyNone (class_dict !! "abstract")))
             then <["abstract" := PyBool false]>
                    (<["tasks" := tasks]> class_dict)
             else <["tasks" := tasks]> class_dict).
Proof.
  unfold UserMeta_new. eff_unfold. simpl.
  destruct (get_tasks_from_base_classes bases class_dict) as [tasks|e];
    simpl; [| discriminate].
  rewrite lookup_insert_ne by done.
  destruct (check_for_deprecated_task_set_attribute _) as [[]|e]; simpl;
    [| discriminate].
  intros [= <- <-]. exists tasks. rewrite <- app_assoc. done.
Qed.

(** C7: building a class calls the resolver exactly once and stores its
    result under [tasks] in the class namespace; every instance without
    a [tasks] of its own reads that value; the constructors, [start] and
    [stop] leave what [self.tasks] reads as it is, and no method of the
    user calls the resolver again. *)
Theorem tasks_resolved_once (classname : string) (bases : list Class)
    (class_dict : Dict) (log log' : list Event) (c : Class) :
  meta_new classname bases class_dict log = (Normal c, log') →
  ∃ tasks : PyVal,
    get_tasks_from_base_classes bases class_dict = Normal tasks
    ∧ resolutions log' = S (resolutions log)
    ∧ cls_dict c !! "tasks" = Some tasks
    ∧ class_lookup c "tasks" = Some tasks
    ∧ (∀ d : Dict, d !! "tasks" = None →
         instance_lookup (MkInstance c d) "tasks" = Some tasks)
    ∧ (∀ (w : World) (env group force : PyVal),
         instance_lookup (w_self w) "tasks" = Some tasks →
         instance_lookup (w_self (User_init env w).2) "tasks" = Some tasks
         ∧ instance_lookup
             (w_self (HttpUser_init ext_getattr HttpSession builtin_ns
                        env w).2) "tasks" = Some tasks
         ∧ instance_lookup (w_self (User_start spawn group w).2) "tasks"
             = Some tasks
         ∧ instance_lookup
             (w_self (User_stop RUNNING WAITING STOPPING group force w).2)
             "tasks" = Some tasks)
    ∧ (∀ env group force : PyVal,
         respects same_resolutions (User_init env)
         ∧ respects same_resolutions
             (HttpUser_init ext_getattr HttpSession builtin_ns env)
         ∧ respects same_resolutions
             (User_run RUNNING on_start on_stop invoke DefaultTaskSet)
         ∧ respects same_resolutions (User_wait invoke)
         ∧ respects same_resolutions (User_start spawn group)
         ∧ respects same_resolutions
             (User_stop RUNNING WAITING STOPPING group force)).
Proof.
  intros Hnew.
  destruct (UserMeta_new_inv _ _ _ _ _ _ Hnew) as (tasks & Hres & -> & ->).
  assert (Hns : (if negb (py_truthy (default PyNone (class_dict !! "abstract")))
                 then <["abstract" := PyBool false]>
                        (<["tasks" := tasks]> class_dict)
                 else <["tasks" := tasks]> class_dict) !! "tasks"
                = Some tasks).
  { destruct (negb _).
    - rewrite lookup_insert_ne by done. apply lookup_insert_eq.
    - apply lookup_insert_eq. }
  exists tasks. split; [exact Hres |]. split.
  { rewrite resolutions_app. simpl. lia. }
  split; [exact Hns |].
  assert (Hcls : class_lookup
            (MkClass classname bases
               (if negb (py_truthy (default PyNone (class_dict !! "abstract")))
                then <["abstract" := PyBool false]>
                       (<["tasks" := tasks]> class_dict)
                else <["tasks" := tasks]> class_dict)) "tasks" = Some tasks).
  { simpl. by rewrite Hns. }
  split; [exact Hcls |]. split.
  { intros d Hd. unfold instance_lookup. simpl inst_dict. rewrite Hd.
    exact Hcls. }
  split.
  - intros w env group force Hw. repeat apply conj.
    + rewrite <- Hw. by apply keeps_attr_User_init.
    + rewrite <- Hw. by apply keeps_attr_HttpUser_init.
    + rewrite <- Hw. by apply keeps_attr_User_start.
    + rewrite <- Hw. by apply keeps_attr_User_stop.
  - intros env group force. repeat apply conj.
    + apply quiet_User_init.
    + apply quiet_HttpUser_init.
    + apply quiet_User_run.
    + apply quiet_User_wait.
    + apply quiet_User_start.
    + apply quiet_User_stop.
Qed.

(** C8: every class the metaclass returns has [abstract] in its own
    namespace; unless the class body declares a truthy [abstract], the
    value is [False], whatever the bases declare; a truthy declaration is
    kept. *)
Theorem abstract_not_inherited (classname : string) (bases : list Class)
    (class_dict : Dict) (log log' : list Event) (c : Class) :
  meta_new classname bases class_dict log = (Normal c, log') →
  is_Some (cls_dict c !! "abstract")
  ∧ (py_truthy (default PyNone (class_dict !! "abstract")) = false →
       cls_dict c !! "abstract" = Some (PyBool false)
       ∧ class_lookup c "abstract" = Some (PyBool false))
  ∧ (py_truthy (default PyNone (class_dict !! "abstract")) = true →
       cls_dict c !! "abstract" = class_dict !! "abstract"
       ∧ class_lookup c "abstract" = class_dict !! "abstract").
Proof.
  intros Hnew.
  destruct (UserMeta_new_inv _ _ _ _ _ _ Hnew) as (tasks & _ & _ & ->).
  destruct (py_truthy (default PyNone (class_dict !! "abstract"))) eqn:Ht;
    simpl.
  - assert (Hd : is_Some (class_dict !! "abstract")).
    { destruct (class_dict !! "abstract"); [eauto | discriminate]. }
    rewrite !lookup_insert_ne by done.
    split; [exact Hd |]. split; [discriminate |]. intros _.
    split; [reflexivity |]. by destruct Hd as [v ->].
  - rewrite !lookup_insert_eq. split; [eauto |].
    split; [done | discriminate].
Qed.
End Meta.

(** ** [User.wait], [User.client] and [HttpUser.__init__] *)

Section Instances.
Variables RUNNING WAITING STOPPING : string.
Variables on_start on_stop : Eff Instance PyVal.
Variable invoke : PyVal → string → Eff Instance PyVal.
Variable DefaultTaskSet : Instance → PyVal.
Variable spawn : PyVal → Instance → PyVal.
Variable ext_getattr : PyVal → string → outcome PyVal.
Variable HttpSession : PyVal → PyVal → PyVal → PyVal.
Variable builtin_ns : Dict.

Local Abbreviation http_init :=
  (HttpUser_init ext_getattr HttpSession builtin_ns).

(** The constructor of the base class only sets [environment]. *)
Lemma User_init_eq (env : PyVal) (w : World) :
  User_init env w =
    (Normal PyNone,
     MkWorld (instance_set (w_self w) "environment" env) (w_log w)).
Proof. reflexivity. Qed.

(** C6 (amended): with [host] reading [None], the constructor raises
    [LocustError] before it creates a session or sets [client]: the trace
    is unchanged, and the only attribute set on the instance is
    [environment], which the base constructor sets first.  With another
    host, and an environment that provides [events.request_success] and
    [events.request_failure], the constructor returns, has created one
    session from them and stored it as [client]. *)
Theorem HttpUser_init_needs_host (w : World) (env host : PyVal) :
  instance_lookup (w_self w) "host" = Some host →
  (is_None host = true →
     http_init env w =
       (Raised (LocustError no_host_message),
        MkWorld (instance_set (w_self w) "environment" env) (w_log w))
     ∧ ∀ k : string, k ≠ "environment" →
         inst_dict (w_self (http_init env w).2) !! k
           = inst_dict (w_self w) !! k)
  ∧ (is_None host = false →
     ∀ events success failure : PyVal,
       getattr_value ext_getattr builtin_ns env "events" = Normal events →
       getattr_value ext_getattr builtin_ns events "request_success"
         = Normal success →
       getattr_value ext_getattr builtin_ns events "request_failure"
         = Normal failure →
       let session := HttpSession host success failure in
       http_init env w =
         (Normal PyNone,
          MkWorld
            (instance_set (instance_set (w_self w) "environment" env)
               "client" session)
            (w_log w ++ [EvHttpSession host success failure;
                         EvSetAttr session "trust_env" (PyBool false)]))
       ∧ instance_lookup (w_self (http_init env w).2) "client"
           = Some session).
Proof.
  intros Hhost.
  assert (Hhost' : instance_lookup
            (instance_set (w_self w) "environment" env) "host" = Some host).
  { by rewrite instance_lookup_set_ne. }
  assert (Henv : instance_lookup
            (instance_set (w_self w) "environment" env) "environment"
            = Some env) by apply instance_lookup_set_eq.
  split.
  - intros Hnone.
    assert (Heq : http_init env w =
       (Raised (LocustError no_host_message),
        MkWorld (instance_set (w_self w) "environment" env) (w_log w))).
    { unfold HttpUser_init, User_init. eff_unfold. simpl.
      rewrite Hhost'. simpl. rewrite Hnone. reflexivity. }
    split; [exact Heq |]. intros k Hk. rewrite Heq. simpl.
    by rewrite lookup_insert_ne.
  - intros Hsome events success failure Hev Hsucc Hfail session.
    assert (Heq : http_init env w =
         (Normal PyNone,
          MkWorld
            (instance_set (instance_set (w_self w) "environment" env)
               "client" session)
            (w_log w ++ [EvHttpSession host success failure;
                         EvSetAttr session "trust_env" (PyBool false)]))).
    { unfold HttpUser_init, User_init. eff_unfold. simpl.
      repeat first
        [ progress simpl | rewrite Hhost' | rewrite Hsome | rewrite Henv
        | rewrite Hev | rewrite Hsucc | rewrite Hfail ].
      rewrite <- app_assoc. reflexivity. }
    split; [exact Heq |]. rewrite Heq. apply instance_lookup_set_eq.
Qed.

(** C9 (amended): on a user whose [client] is the raiser of the [User]
    class, [self.client.k] raises [LocustError], not [AttributeError],
    for every name [k] that ordinary lookup does not find on the raiser;
    those are the names other than [__getattr__], [__doc__] and what
    every object has. *)
Theorem client_attr_raises (w : World) (id : nat) (k : string) :
  instance_lookup (w_self w) "client"
    = Some (PyObj "NoClientWarningRaiser" id) →
  instance_lookup (NoClientWarningRaiser_new builtin_ns) k = None →
  client_attr ext_getattr builtin_ns k w
    = (Raised (LocustError no_client_message), w)
  ∧ isinstance (LocustError no_client_message) "LocustError" = true
  ∧ isinstance (LocustError no_client_message) "AttributeError" = false
  ∧ k ≠ "__getattr__" ∧ k ≠ "__doc__" ∧ builtin_ns !! k = None.
Proof.
  intros Hclient Hk. split.
  { unfold client_attr. eff_unfold. rewrite Hclient. simpl.
    unfold NoClientWarningRaiser_getattr. rewrite Hk. reflexivity. }
  split; [reflexivity |]. split; [reflexivity |].
  unfold instance_lookup, NoClientWarningRaiser_new in Hk. simpl in Hk.
  rewrite lookup_empty in Hk. unfold NoClientWarningRaiser_body in Hk.
  destruct (decide (k = "__getattr__")) as [-> | H1].
  { by rewrite lookup_insert_eq in Hk. }
  rewrite lookup_insert_ne in Hk by done.
  destruct (decide (k = "__doc__")) as [-> | H2].
  { by rewrite lookup_insert_eq in Hk. }
  rewrite lookup_insert_ne in Hk by done. rewrite lookup_empty in Hk.
  destruct (builtin_ns !! k); [discriminate | done].
Qed.

(** The converse reading of the side condition of C9. *)
Lemma raiser_lookup_None (k : string) :
  k ≠ "__getattr__" → k ≠ "__doc__" → builtin_ns !! k = None →
  instance_lookup (NoClientWarningRaiser_new builtin_ns) k = None.
Proof.
  intros H1 H2 H3. unfold instance_lookup, NoClientWarningRaiser_new. simpl.
  rewrite lookup_empty. unfold NoClientWarningRaiser_body.
  rewrite !lookup_insert_ne by done. rewrite lookup_empty. by rewrite H3.
Qed.

(** C10: while [_taskset_instance] still reads [None], as the class
    declares it, [wait] raises [AttributeError] and changes nothing; the
    constructor, [start] and [stop] leave the attribute as it is; [run]
    is what sets it: the receiver on which [run] makes its first call,
    that of the setup hook, has [_state] running and the new
    [DefaultTaskSet] as [_taskset_instance], and on that receiver [wait]
    calls the task set's [wait]. *)
Theorem wait_needs_run (w : World) (env group force : PyVal) :
  instance_lookup (w_self w) "_taskset_instance" = Some PyNone →
  (∃ e : Exn, User_wait invoke w = (Raised e, w)
              ∧ isinstance e "AttributeError" = true)
  ∧ same_attr "_taskset_instance" w (User_init env w).2
  ∧ same_attr "_taskset_instance" w (User_start spawn group w).2
  ∧ same_attr "_taskset_instance" w
      (User_stop RUNNING WAITING STOPPING group force w).2
  ∧ (let taskset :=
       DefaultTaskSet (instance_set (w_self w) "_state" (PyStr RUNNING)) in
     ∃ (o : Instance) (rest : list Event),
       w_log (User_run RUNNING on_start on_stop invoke DefaultTaskSet w).2
         = w_log w ++ EvHook "on_start" o :: rest
       ∧ instance_lookup o "_state" = Some (PyStr RUNNING)
       ∧ instance_lookup o "_taskset_instance" = Some taskset
       ∧ (is_None taskset = false →
          ∀ log : list Event,
            User_wait invoke (MkWorld o log)
            = (let '(r, o') := invoke taskset "wait" o in
               (after_teardown r,
                MkWorld o' (log ++ [EvMethod taskset "wait"]))))).
Proof.
  intros Hts. split.
  { eexists. unfold User_wait. eff_unfold. rewrite Hts. simpl.
    split; reflexivity. }
  split; [by apply keeps_attr_User_init |].
  split; [by apply keeps_attr_User_start |].
  split; [by apply keeps_attr_User_stop |].
  simpl.
  destruct (run_calls_setup_first RUNNING on_start on_stop invoke
              DefaultTaskSet w) as [rest Hrest].
  exists (entered RUNNING DefaultTaskSet (w_self w)), rest.
  split; [exact Hrest |]. split; [apply entered_state |].
  assert (Hset : instance_lookup (entered RUNNING DefaultTaskSet (w_self w))
                   "_taskset_instance"
                 = Some (DefaultTaskSet
                           (instance_set (w_self w) "_state" (PyStr RUNNING)))).
  { unfold entered. apply instance_lookup_set_eq. }
  split; [exact Hset |].
  intros Hsome log. unfold User_wait. eff_unfold. simpl.
  rewrite Hset. simpl. rewrite Hsome. simpl.
  destruct (invoke _ "wait" _) as [[v|e] o']; reflexivity.
Qed.
End Instances.

(** * The theorems at work on the concrete load test *)

Lemma stop_kills_immediately_witness :
  instance_lookup (w_self (demo_in_state "waiting")) "_greenlet"
    = Some (PyObj "Greenlet" 1)
  ∧ (py_truthy (PyBool false) = true
     ∨ instance_lookup (w_self (demo_in_state "waiting")) "_state"
         = Some (PyStr "waiting"))
  ∧ User_stop "running" "waiting" "stopping" demo_group (PyBool false)
      (demo_in_state "waiting")
    = (Normal (PyBool true),
       MkWorld (w_self (demo_in_state "waiting"))
         [EvSpawn demo_group;
          EvKillone demo_group (PyObj "Greenlet" 1)]).
Proof.
  split; [reflexivity |]. split; [right; reflexivity |].
  apply (stop_kills_immediately "running" "waiting" "stopping"
           (demo_in_state "waiting") demo_group (PyBool false)
           (PyObj "Greenlet" 1)).
  - reflexivity.
  - right. reflexivity.
Defined.

Lemma stop_running_defers_witness :
  "running" ≠ "waiting"
  ∧ py_truthy (PyBool false) = false
  ∧ instance_lookup (w_self (demo_in_state "running")) "_state"
      = Some (PyStr "running")
  ∧ ∃ w' : World,
      User_stop "running" "waiting" "stopping" demo_group (PyBool false)
        (demo_in_state "running") = (Normal (PyBool false), w')
      ∧ w_log w' = [EvSpawn demo_group]
      ∧ instance_lookup (w_self w') "_state" = Some (PyStr "stopping").
Proof.
  split; [discriminate |]. split; [reflexivity |]. split; [reflexivity |].
  destruct (stop_running_defers "running" "waiting" "stopping"
              (demo_in_state "running") demo_group (PyBool false))
    as (w' & Hstop & Hlog & Hstate & _); [discriminate | reflexivity.. |].
  exists w'. split; [exact Hstop |]. split; [exact Hlog | exact Hstate].
Defined.

Lemma stop_noop_returns_None_witness :
  "stopping" ≠ "waiting" ∧ "stopping" ≠ "running"
  ∧ py_truthy (PyBool false) = false
  ∧ instance_lookup (w_self demo_started) "_state" = Some PyNone
  ∧ User_stop "running" "waiting" "stopping" demo_group (PyBool false)
      demo_started = (Normal PyNone, demo_started).
Proof.
  split; [discriminate |]. split; [discriminate |].
  split; [reflexivity |]. split; [reflexivity |].
  apply (stop_noop_returns_None "running" "waiting" "stopping" demo_started
           demo_group (PyBool false) PyNone);
    [discriminate | discriminate | reflexivity | reflexivity | by left].
Defined.

Lemma run_teardown_on_termination_witness :
  raised_in_run User_on_start demo_loop_killed demo_entered GreenletExit
    demo_entered demo_calls
  ∧ is_termination GreenletExit = true
  ∧ User_run "running" User_on_start User_on_stop demo_loop_killed
      demo_DefaultTaskSet (fresh demo_MyUser)
    = (Normal PyNone,
       MkWorld demo_entered (demo_calls ++ [EvHook "on_stop" demo_entered])).
Proof.
  assert (Hraise : raised_in_run User_on_start demo_loop_killed demo_entered
                     GreenletExit demo_entered demo_calls).
  { by apply (raised_in_loop User_on_start demo_loop_killed demo_entered
                GreenletExit PyNone demo_taskset demo_entered demo_entered). }
  split; [exact Hraise |]. split; [reflexivity |].
  destruct (run_teardown_on_termination "running" User_on_start User_on_stop
              demo_loop_killed demo_DefaultTaskSet (fresh demo_MyUser))
    as (_ & _ & Hterm).
  destruct (Hterm GreenletExit demo_entered demo_calls Hraise eq_refl)
    as (_ & _ & Hstop).
  exact (Hstop PyNone demo_entered eq_refl).
Defined.

(** The other way into the handler: the setup hook stops the user, the
    task loop is never entered, the teardown hook runs. *)
Example run_setup_stops :
  User_run "running" demo_setup_stops User_on_stop demo_loop_killed
    demo_DefaultTaskSet (fresh demo_MyUser)
  = (Normal PyNone,
     MkWorld demo_entered
       [EvHook "on_start" demo_entered; EvHook "on_stop" demo_entered]).
Proof. reflexivity. Qed.

(** A setup hook that fails ends [run] at once. *)
Example run_setup_fails :
  User_run "running" demo_setup_fails User_on_stop demo_loop_killed
    demo_DefaultTaskSet (fresh demo_MyUser)
  = (Raised demo_failure,
     MkWorld demo_entered [EvHook "on_start" demo_entered]).
Proof. reflexivity. Qed.

(** C4 as stated fails: the greenlet is killed in the task loop, [run]
    calls the teardown hook, the greenlet is killed again while the hook
    runs, and [GreenletExit] comes out of [run]. *)
Lemma run_teardown_may_raise :
  raised_in_run User_on_start demo_loop_killed demo_entered GreenletExit
    demo_entered demo_calls
  ∧ is_termination GreenletExit = true
  ∧ User_run "running" User_on_start demo_teardown_killed demo_loop_killed
      demo_DefaultTaskSet (fresh demo_MyUser)
    = (Raised GreenletExit,
       MkWorld demo_entered (demo_calls ++ [EvHook "on_stop" demo_entered]))
  ∧ ¬ ∃ (v : PyVal) (w' : World),
        User_run "running" User_on_start demo_teardown_killed
          demo_loop_killed demo_DefaultTaskSet (fresh demo_MyUser)
        = (Normal v, w').
Proof.
  split.
  { by apply (raised_in_loop User_on_start demo_loop_killed demo_entered
                GreenletExit PyNone demo_taskset demo_entered demo_entered). }
  split; [reflexivity |]. split; [reflexivity |].
  intros (v & w' & H). discriminate H.
Qed.

Lemma run_propagates_failure_witness :
  raised_in_run User_on_start demo_loop_fails demo_entered demo_failure
    demo_entered demo_calls
  ∧ is_termination demo_failure = false
  ∧ User_run "running" User_on_start User_on_stop demo_loop_fails
      demo_DefaultTaskSet (fresh demo_MyUser)
    = (Raised demo_failure, MkWorld demo_entered demo_calls).
Proof.
  assert (Hraise : raised_in_run User_on_start demo_loop_fails demo_entered
                     demo_failure demo_entered demo_calls).
  { by apply (raised_in_loop User_on_start demo_loop_fails demo_entered
                demo_failure PyNone demo_taskset demo_entered demo_entered). }
  split; [exact Hraise |]. split; [reflexivity |].
  exact (proj1 (run_propagates_failure "running" User_on_start User_on_stop
                  demo_loop_fails demo_DefaultTaskSet (fresh demo_MyUser)
                  demo_failure demo_entered demo_calls Hraise eq_refl)).
Defined.

Lemma HttpUser_init_needs_host_witness :
  instance_lookup (w_self (fresh demo_WebUser)) "host" = Some demo_url
  ∧ HttpUser_init demo_ext_getattr demo_HttpSession demo_builtins
      demo_environment (fresh demo_WebUser)
    = (Normal PyNone,
       MkWorld
         (instance_set
            (instance_set (w_self (fresh demo_WebUser)) "environment"
               demo_environment)
            "client" (PyObj "HttpSession" 4))
         [EvHttpSession demo_url demo_hook demo_hook;
          EvSetAttr (PyObj "HttpSession" 4) "trust_env" (PyBool false)]).
Proof.
  split; [reflexivity |].
  exact (proj1 (proj2 (HttpUser_init_needs_host demo_ext_getattr
                         demo_HttpSession demo_builtins (fresh demo_WebUser)
                         demo_environment demo_url eq_refl)
                  eq_refl (PyObj "Events" 3) demo_hook demo_hook
                  eq_refl eq_refl eq_refl)).
Defined.

(** C6 as stated fails: when the constructor raises for an [HttpUser]
    without host, the instance already has its [environment] attribute,
    which it did not have before the call. *)
Lemma HttpUser_init_sets_environment_first :
  instance_lookup (w_self (fresh demo_HttpUser)) "host" = Some PyNone
  ∧ inst_dict (w_self (fresh demo_HttpUser)) !! "environment" = None
  ∧ ∃ w' : World,
      HttpUser_init demo_ext_getattr demo_HttpSession demo_builtins
        demo_environment (fresh demo_HttpUser)
      = (Raised (LocustError no_host_message), w')
      ∧ inst_dict (w_self w') !! "environment" = Some demo_environment
      ∧ inst_dict (w_self w') ≠ inst_dict (w_self (fresh demo_HttpUser)).
Proof.
  split; [reflexivity |]. split; [reflexivity |].
  eexists. split; [reflexivity |]. split; [reflexivity |].
  intros H. apply (f_equal (λ d : Dict, d !! "environment")) in H.
  discriminate H.
Qed.

Lemma tasks_resolved_once_witness :
  UserMeta_new demo_resolver demo_check "MyUser" [demo_User] ∅ []
    = (Normal demo_MyUser, [EvGetTasks "MyUser"; EvCheckDeprecated "MyUser"])
  ∧ ∃ tasks : PyVal,
      demo_resolver [demo_User] ∅ = Normal tasks
      ∧ resolutions [EvGetTasks "MyUser"; EvCheckDeprecated "MyUser"] = 1
      ∧ instance_lookup (w_self (fresh demo_MyUser)) "tasks" = Some tasks
      ∧ instance_lookup (w_self demo_started) "tasks" = Some tasks.
Proof.
  split; [reflexivity |].
  destruct (tasks_resolved_once demo_resolver demo_check
              "running" "waiting" "stopping" User_on_start User_on_stop
              demo_loop_killed demo_DefaultTaskSet demo_spawn
              demo_ext_getattr demo_HttpSession demo_builtins
              "MyUser" [demo_User] ∅ []
              [EvGetTasks "MyUser"; EvCheckDeprecated "MyUser"] demo_MyUser
              demo_MyUser_built)
    as (tasks & Hres & Hcount & _ & _ & Hinst & Hkeep & _).
  exists tasks. split; [exact Hres |]. split; [exact Hcount |].
  pose proof (Hinst ∅ eq_refl) as Hfresh.
  split; [exact Hfresh |].
  destruct (Hkeep (fresh demo_MyUser) demo_environment demo_group PyNone
              Hfresh) as (Hinit & _).
  destruct (Hkeep (User_init demo_environment (fresh demo_MyUser)).2
              demo_environment demo_group PyNone Hinit) as (_ & _ & Hstart & _).
  exact Hstart.
Defined.

Lemma abstract_not_inherited_witness :
  UserMeta_new demo_resolver demo_check "MyUser" [demo_User] ∅ []
    = (Normal demo_MyUser, [EvGetTasks "MyUser"; EvCheckDeprecated "MyUser"])
  ∧ class_lookup demo_User "abstract" = Some (PyBool true)
  ∧ py_truthy (default PyNone ((∅ : Dict) !! "abstract")) = false
  ∧ class_lookup demo_MyUser "abstract" = Some (PyBool false).
Proof.
  split; [reflexivity |]. split; [reflexivity |]. split; [reflexivity |].
  destruct (abstract_not_inherited demo_resolver demo_check
              "MyUser" [demo_User] ∅ []
              [EvGetTasks "MyUser"; EvCheckDeprecated "MyUser"] demo_MyUser
              demo_MyUser_built) as (_ & Hfalse & _).
  exact (proj2 (Hfalse eq_refl)).
Defined.

Lemma client_attr_raises_witness :
  instance_lookup (w_self demo_started) "client"
    = Some (PyObj "NoClientWarningRaiser" 0)
  ∧ instance_lookup (NoClientWarningRaiser_new demo_builtins) "get" = None
  ∧ client_attr demo_ext_getattr demo_builtins "get" demo_started
    = (Raised (LocustError no_client_message), demo_started).
Proof.
  split; [reflexivity |]. split; [reflexivity |].
  exact (proj1 (client_attr_raises demo_ext_getattr demo_builtins
                  demo_started 0 "get" eq_refl eq_refl)).
Defined.

(** C9 as stated fails: [self.client.__doc__] and
    [self.client.__getattr__] are found by ordinary lookup on the raiser's
    class, so they return a value and raise nothing. *)
Lemma client_attr_found_returns :
  instance_lookup (w_self demo_started) "client"
    = Some (PyObj "NoClientWarningRaiser" 0)
  ∧ client_attr demo_ext_getattr demo_builtins "__getattr__" demo_started
    = (Normal (PyFunc "NoClientWarningRaiser.__getattr__"), demo_started)
  ∧ ∃ doc : string,
      client_attr demo_ext_getattr demo_builtins "__doc__" demo_started
      = (Normal (PyStr doc), demo_started).
Proof.
  split; [reflexivity |]. split; [reflexivity |].
  eexists. reflexivity.
Qed.

Lemma wait_needs_run_witness :
  instance_lookup (w_self demo_started) "_taskset_instance" = Some PyNone
  ∧ (∃ e : Exn,
       User_wait demo_loop_killed demo_started = (Raised e, demo_started)
       ∧ isinstance e "AttributeError" = true)
  ∧ ∃ (o : Instance) (rest : list Event),
      w_log (User_run "running" User_on_start User_on_stop demo_loop_killed
               demo_DefaultTaskSet demo_started).2
        = w_log demo_started ++ EvHook "on_start" o :: rest
      ∧ instance_lookup o "_taskset_instance" = Some demo_taskset.
Proof.
  split; [reflexivity |].
  destruct (wait_needs_run "running" "waiting" "stopping" User_on_start
              User_on_stop demo_loop_killed demo_DefaultTaskSet demo_spawn
              demo_started demo_environment demo_group PyNone eq_refl)
    as (Hwait & _ & _ & _ & o & rest & Hlog & _ & Hset & _).
  split; [exact Hwait |]. exists o, rest. split; [exact Hlog | exact Hset].
Defined.

(** * Further properties of the module *)

(** ** [start] and [stop] together *)

Section StartStop.
Variables RUNNING WAITING STOPPING : string.
Variable spawn : PyVal → Instance → PyVal.

Local Abbreviation stop := (User_stop RUNNING WAITING STOPPING).

(** X1: a forced stop of a user that was just started kills the greenlet
    [start] got from the group, and nothing but [_greenlet] has changed on
    the user. *)
Theorem start_then_forced_stop (w : World) (group group' force : PyVal) :
  py_truthy force = true →
  stop group' force (User_start spawn group w).2
  = (Normal (PyBool true),
     MkWorld (instance_set (w_self w) "_greenlet" (spawn group (w_self w)))
       (w_log w ++ [EvSpawn group;
                    EvKillone group' (spawn group (w_self w))])).
Proof.
  intros Hf. unfold User_stop, User_start. eff_unfold. simpl.
  rewrite instance_lookup_set_eq. simpl. rewrite Hf. simpl.
  rewrite instance_lookup_set_eq. simpl. by rewrite <- app_assoc.
Qed.

(** X2: once an unforced stop has been deferred, every further unforced
    stop returns [None] and changes nothing: the state stays stopping and
    no [killone] is ever sent. *)
Theorem stop_twice_is_noop (w : World) (group force force' : PyVal) :
  RUNNING ≠ WAITING → STOPPING ≠ WAITING → STOPPING ≠ RUNNING →
  py_truthy force = false → py_truthy force' = false →
  instance_lookup (w_self w) "_state" = Some (PyStr RUNNING) →
  (stop group force w).2
    = MkWorld (instance_set (w_self w) "_state" (PyStr STOPPING)) (w_log w)
  ∧ stop group force' (stop group force w).2
    = (Normal PyNone, (stop group force w).2).
Proof.
  intros Hrw Hsw Hsr Hf Hf' Hs.
  assert (H1 : (stop group force w).2
    = MkWorld (instance_set (w_self w) "_state" (PyStr STOPPING)) (w_log w)).
  { unfold User_stop. eff_unfold. rewrite Hf, Hs. simpl.
    rewrite (proj2 (String.eqb_neq RUNNING WAITING) Hrw).
    rewrite Hs. simpl. by rewrite String.eqb_refl. }
  split; [exact H1 |]. rewrite H1.
  apply (stop_falls_through RUNNING WAITING STOPPING _ group force'
           (PyStr STOPPING) Hf').
  - apply instance_lookup_set_eq.
  - by apply py_eq_str_ne.
  - by apply py_eq_str_ne.
Qed.

(** X3: all that [stop] can do.  Either it changes nothing (and returns
    [None], or fails with [AttributeError] on a receiver without [_state]
    or [_greenlet]), or it sends one [killone] for the stored handle and
    returns [True], or it sets [_state] to stopping and returns [False].
    It never spawns, never touches another attribute, never kills twice. *)
Theorem stop_outcomes (w : World) (group force : PyVal) :
  ((stop group force w).2 = w
   ∧ ((stop group force w).1 = Normal PyNone
      ∨ ∃ e : Exn, (stop group force w).1 = Raised e
                   ∧ isinstance e "AttributeError" = true))
  ∨ (∃ greenlet : PyVal,
       instance_lookup (w_self w) "_greenlet" = Some greenlet
       ∧ stop group force w
         = (Normal (PyBool true),
            MkWorld (w_self w) (w_log w ++ [EvKillone group greenlet])))
  ∨ (stop group force w
     = (Normal (PyBool false),
        MkWorld (instance_set (w_self w) "_state" (PyStr STOPPING))
          (w_log w))).
Proof.
  unfold User_stop. eff_unfold.
  destruct (py_truthy force); simpl.
  - destruct (instance_lookup (w_self w) "_greenlet") as [gl|] eqn:Hg; simpl.
    + right. left. by exists gl.
    + left. split; [reflexivity |]. right. eexists. by split.
  - destruct (instance_lookup (w_self w) "_state") as [st|] eqn:Hs; simpl.
    2: { left. split; [reflexivity |]. right. eexists. by split. }
    destruct (py_eq st (PyStr WAITING)); simpl.
    + destruct (instance_lookup (w_self w) "_greenlet") as [gl|] eqn:Hg; simpl.
      * right. left. by exists gl.
      * left. split; [reflexivity |]. right. eexists. by split.
    + rewrite Hs. simpl. destruct (py_eq st (PyStr RUNNING)); simpl.
      * right. right. reflexivity.
      * left. split; [reflexivity |]. by left.
Qed.

(** X7: [start] does not refuse a second call: it replaces the stored
    handle, and a later forced stop sends its single [killone] to the
    greenlet of the second call; when the group gave the two calls
    different handles, the first one gets no [killone]. *)
Theorem second_start_replaces_handle (w : World)
    (group1 group2 group force : PyVal) :
  py_truthy force = true →
  spawn group1 (w_self w)
    ≠ spawn group2 (w_self (User_start spawn group1 w).2) →
  instance_lookup (w_self (User_start spawn group2
                             (User_start spawn group1 w).2).2) "_greenlet"
    = Some (spawn group2 (w_self (User_start spawn group1 w).2))
  ∧ w_log (stop group force
             (User_start spawn group2 (User_start spawn group1 w).2).2).2
    = w_log w ++ [EvSpawn group1; EvSpawn group2;
                  EvKillone group
                    (spawn group2 (w_self (User_start spawn group1 w).2))]
  ∧ ∀ g : PyVal,
      EvKillone g (spawn group1 (w_self w))
        ∉ [EvSpawn group1; EvSpawn group2;
           EvKillone group
             (spawn group2 (w_self (User_start spawn group1 w).2))].
Proof.
  intros Hf Hne. split; [| split].
  - rewrite (proj1 (start_stores_handle spawn w group1)). simpl.
    rewrite (proj1 (start_stores_handle spawn _ group2)). simpl.
    apply instance_lookup_set_eq.
  - rewrite (proj1 (start_stores_handle spawn w group1)). simpl.
    rewrite (proj1 (start_stores_handle spawn _ group2)). simpl.
    unfold User_stop. eff_unfold. simpl. rewrite Hf. simpl.
    rewrite instance_lookup_set_eq. simpl. by rewrite <- !app_assoc.
  - intros g Hin.
    apply elem_of_cons in Hin as [Hin | Hin]; [discriminate |].
    apply elem_of_cons in Hin as [Hin | Hin]; [discriminate |].
    apply list_elem_of_singleton in Hin. by injection Hin as _ Hh.
Qed.
End StartStop.

(** ** More on [run] *)

Section RunMore.
Variable RUNNING : string.
Variables on_start on_stop : Eff Instance PyVal.
Variable invoke : PyVal → string → Eff Instance PyVal.
Variable DefaultTaskSet : Instance → PyVal.
Variable ext_getattr : PyVal → string → outcome PyVal.
Variable builtin_ns : Dict.

Local Abbreviation run :=
  (User_run RUNNING on_start on_stop invoke DefaultTaskSet).
Local Abbreviation enter := (entered RUNNING DefaultTaskSet).

(** X4: when the setup hook and the task loop both return, [run] returns
    [None] and the teardown hook is not called: teardown belongs to the
    [except] handler only. *)
Theorem run_completes_without_teardown (w : World) (v v' taskset : PyVal)
    (o1 o2 : Instance) :
  on_start (enter (w_self w)) = (Normal v, o1) →
  instance_lookup o1 "_taskset_instance" = Some taskset →
  is_None taskset = false →
  invoke taskset "run" o1 = (Normal v', o2) →
  run w = (Normal PyNone,
           MkWorld o2 (w_log w ++ [EvHook "on_start" (enter (w_self w));
                                   EvMethod taskset "run"]))
  ∧ ∀ o' : Instance,
      EvHook "on_stop" o'
        ∉ [EvHook "on_start" (enter (w_self w)); EvMethod taskset "run"].
Proof.
  intros H1 H2 H3 H4. split.
  - unfold User_run. eff_unfold. simpl. fold (enter (w_self w)).
    rewrite H1. simpl. rewrite H2, H3. simpl. rewrite H4. simpl.
    by rewrite <- app_assoc.
  - intros o'. not_among.
Qed.

(** X5: the calls [run] makes, whatever the hooks and the task set do:
    the setup hook once and first, then at most one call of the task
    loop, then at most one call of the teardown hook, which is last. *)
Theorem run_call_shape (w : World) :
  ∃ calls : list Event,
    w_log (run w).2 = w_log w ++ EvHook "on_start" (enter (w_self w)) :: calls
    ∧ (calls = []
       ∨ (∃ o : Instance, calls = [EvHook "on_stop" o])
       ∨ (∃ taskset : PyVal, calls = [EvMethod taskset "run"])
       ∨ (∃ (taskset : PyVal) (o : Instance),
            calls = [EvMethod taskset "run"; EvHook "on_stop" o])).
Proof.
  unfold User_run. eff_unfold. simpl. fold (enter (w_self w)).
  repeat (case_match; simplify_eq/=); rewrite <- ?app_assoc; simpl;
    eexists; (split; [reflexivity |]); eauto 8.
Qed.

(** X6: a setup hook that leaves [_taskset_instance] as [None] makes [run]
    fail with [AttributeError] before any task runs; that is no
    termination signal, so the teardown hook is not called. *)
Theorem run_without_taskset (w : World) (v : PyVal) (o1 : Instance) :
  on_start (enter (w_self w)) = (Normal v, o1) →
  instance_lookup o1 "_taskset_instance" = Some PyNone →
  ∃ e : Exn,
    run w = (Raised e,
             MkWorld o1 (w_log w ++ [EvHook "on_start" (enter (w_self w))]))
    ∧ isinstance e "AttributeError" = true
    ∧ is_termination e = false.
Proof.
  intros H1 H2.
  exists (AttributeError ("'NoneType' object has no attribute " +:+ "run")).
  split; [| split; reflexivity].
  unfold User_run. eff_unfold. simpl. fold (enter (w_self w)).
  rewrite H1. simpl. rewrite H2. simpl. reflexivity.
Qed.

(** X12: an old test script whose setup hook reads [self.client.k] on a
    plain [User]: [run] fails with the [LocustError] of the raiser, right
    after the setup hook; no task runs and the teardown hook is not
    called. *)
Theorem run_old_script_fails (w : World) (id : nat) (k : string) :
  instance_lookup (w_self w) "client"
    = Some (PyObj "NoClientWarningRaiser" id) →
  instance_lookup (NoClientWarningRaiser_new builtin_ns) k = None →
  User_run RUNNING (setup_reads_client ext_getattr builtin_ns k) on_stop
    invoke DefaultTaskSet w
  = (Raised (LocustError no_client_message),
     MkWorld (enter (w_self w))
       (w_log w ++ [EvHook "on_start" (enter (w_self w))])).
Proof.
  intros Hc Hk.
  assert (Hc' : instance_lookup (enter (w_self w)) "client"
                = Some (PyObj "NoClientWarningRaiser" id)).
  { unfold entered. by rewrite !instance_lookup_set_ne. }
  assert (Hsetup : setup_reads_client ext_getattr builtin_ns k
                     (enter (w_self w))
                   = (Raised (LocustError no_client_message),
                      enter (w_self w))).
  { unfold setup_reads_client, client_attr. eff_unfold. simpl.
    rewrite Hc'. simpl. unfold NoClientWarningRaiser_getattr.
    by rewrite Hk. }
  rewrite (run_on_raise RUNNING _ on_stop invoke DefaultTaskSet w
             (LocustError no_client_message) (enter (w_self w))
             [EvHook "on_start" (enter (w_self w))]).
  - reflexivity.
  - by apply raised_in_setup.
Qed.
End RunMore.

(** ** More on [UserMeta.__new__] and [HttpUser.__init__] *)

Section MetaMore.
Variable get_tasks_from_base_classes : list Class → Dict → outcome PyVal.
Variable check_for_deprecated_task_set_attribute : Dict → outcome unit.
Variable ext_getattr : PyVal → string → outcome PyVal.
Variable HttpSession : PyVal → PyVal → PyVal → PyVal.
Variable builtin_ns : Dict.

Local Abbreviation meta_new :=
  (UserMeta_new get_tasks_from_base_classes
     check_for_deprecated_task_set_attribute).
Local Abbreviation http_init :=
  (HttpUser_init ext_getattr HttpSession builtin_ns).


(** X8: no class is built when a collaborator raises.  An exception of
    the task resolver comes out of the metaclass before the deprecation
    check is called; an exception of the deprecation check comes out as
    well, after both calls. *)
Theorem UserMeta_new_raises (classname : string) (bases : list Class)
    (class_dict : Dict) (log : list Event) (e : Exn) :
  (get_tasks_from_base_classes bases class_dict = Raised e →
     meta_new classname bases class_dict log
     = (Raised e, log ++ [EvGetTasks classname]))
  ∧ (∀ tasks : PyVal,
       get_tasks_from_base_classes bases class_dict = Normal tasks →
       check_for_deprecated_task_set_attribute
         (built_namespace tasks class_dict) = Raised e →
       meta_new classname bases class_dict log
       = (Raised e,
          log ++ [EvGetTasks classname; EvCheckDeprecated classname])).
Proof.
  split.
  - intros H. unfold UserMeta_new. eff_unfold. simpl. by rewrite H.
  - intros tasks H1 H2. unfold UserMeta_new, built_namespace in *.
    eff_unfold. simpl. rewrite H1. simpl. rewrite H2. simpl.
    by rewrite <- app_assoc.
Qed.



(** X11: with a host but an environment that lacks [events], or events
    that lack [request_success] or [request_failure], the constructor of
    [HttpUser] fails with the error of that attribute access; no session
    has been created, [client] is not set, [environment] is. *)
Theorem HttpUser_init_bad_environment (w : World) (env host : PyVal)
    (e : Exn) :
  instance_lookup (w_self w) "host" = Some host →
  is_None host = false →
  getattr_value ext_getattr builtin_ns env "events" = Raised e
  ∨ (∃ events : PyVal,
       getattr_value ext_getattr builtin_ns env "events" = Normal events
       ∧ (getattr_value ext_getattr builtin_ns events "request_success"
            = Raised e
          ∨ ∃ success : PyVal,
              getattr_value ext_getattr builtin_ns events "request_success"
                = Normal success
              ∧ getattr_value ext_getattr builtin_ns events "request_failure"
                = Raised e)) →
  http_init env w
  = (Raised e, MkWorld (instance_set (w_self w) "environment" env) (w_log w)).
Proof.
  intros Hhost Hsome Henv.
  assert (Hhost' : instance_lookup
            (instance_set (w_self w) "environment" env) "host" = Some host).
  { by rewrite instance_lookup_set_ne. }
  assert (Hself : instance_lookup
            (instance_set (w_self w) "environment" env) "environment"
            = Some env) by apply instance_lookup_set_eq.
  unfold HttpUser_init, User_init. eff_unfold. simpl.
  destruct Henv as [He | (events & Hev & [Hs | (success & Hs & Hf)])];
    repeat first
      [ progress simpl | rewrite Hhost' | rewrite Hsome | rewrite Hself
      | rewrite He | rewrite Hev | rewrite Hs | rewrite Hf ];
    reflexivity.
Qed.
End MetaMore.

(** * The further properties on the concrete load test *)


Lemma start_then_forced_stop_witness :
  py_truthy (PyBool true) = true
  ∧ User_stop "running" "waiting" "stopping" demo_group (PyBool true)
      demo_started
    = (Normal (PyBool true),
       MkWorld (w_self demo_started)
         [EvSpawn demo_group; EvKillone demo_group (PyObj "Greenlet" 1)]).
Proof.
  split; [reflexivity |].
  exact (start_then_forced_stop "running" "waiting" "stopping" demo_spawn
           (User_init demo_environment (fresh demo_MyUser)).2
           demo_group demo_group (PyBool true) eq_refl).
Defined.

Lemma stop_twice_is_noop_witness :
  "running" ≠ "waiting" ∧ "stopping" ≠ "waiting" ∧ "stopping" ≠ "running"
  ∧ py_truthy (PyBool false) = false
  ∧ instance_lookup (w_self (demo_in_state "running")) "_state"
      = Some (PyStr "running")
  ∧ User_stop "running" "waiting" "stopping" demo_group (PyBool false)
      (User_stop "running" "waiting" "stopping" demo_group (PyBool false)
         (demo_in_state "running")).2
    = (Normal PyNone, demo_in_state "stopping").
Proof.
  split; [discriminate |]. split; [discriminate |]. split; [discriminate |].
  split; [reflexivity |]. split; [reflexivity |].
  destruct (stop_twice_is_noop "running" "waiting" "stopping"
              (demo_in_state "running") demo_group (PyBool false)
              (PyBool false))
    as [H1 H2]; [discriminate | discriminate | discriminate
                 | reflexivity | reflexivity | reflexivity |].
  rewrite H2. rewrite H1. reflexivity.
Defined.

Lemma run_completes_without_teardown_witness :
  User_on_start demo_entered = (Normal PyNone, demo_entered)
  ∧ instance_lookup demo_entered "_taskset_instance" = Some demo_taskset
  ∧ is_None demo_taskset = false
  ∧ demo_loop_returns demo_taskset "run" demo_entered
      = (Normal PyNone, demo_entered)
  ∧ User_run "running" User_on_start User_on_stop demo_loop_returns
      demo_DefaultTaskSet (fresh demo_MyUser)
    = (Normal PyNone, MkWorld demo_entered demo_calls).
Proof.
  split; [reflexivity |]. split; [reflexivity |]. split; [reflexivity |].
  split; [reflexivity |].
  exact (proj1 (run_completes_without_teardown "running" User_on_start
                  User_on_stop demo_loop_returns demo_DefaultTaskSet
                  (fresh demo_MyUser) PyNone PyNone demo_taskset
                  demo_entered demo_entered
                  eq_refl eq_refl eq_refl eq_refl)).
Defined.

Lemma run_without_taskset_witness :
  demo_setup_clears demo_entered
    = (Normal PyNone, instance_set demo_entered "_taskset_instance" PyNone)
  ∧ instance_lookup (instance_set demo_entered "_taskset_instance" PyNone)
      "_taskset_instance" = Some PyNone
  ∧ ∃ e : Exn,
      User_run "running" demo_setup_clears User_on_stop demo_loop_returns
        demo_DefaultTaskSet (fresh demo_MyUser)
      = (Raised e,
         MkWorld (instance_set demo_entered "_taskset_instance" PyNone)
           [EvHook "on_start" demo_entered])
      ∧ isinstance e "AttributeError" = true
      ∧ is_termination e = false.
Proof.
  split; [reflexivity |]. split; [reflexivity |].
  exact (run_without_taskset "running" demo_setup_clears User_on_stop
           demo_loop_returns demo_DefaultTaskSet (fresh demo_MyUser) PyNone
           (instance_set demo_entered "_taskset_instance" PyNone)
           eq_refl eq_refl).
Defined.

Lemma second_start_replaces_handle_witness :
  py_truthy (PyBool true) = true
  ∧ demo_spawn_numbered demo_group (w_self (fresh demo_MyUser))
    ≠ demo_spawn_numbered (PyObj "Group" 7)
        (w_self (User_start demo_spawn_numbered demo_group
                   (fresh demo_MyUser)).2)
  ∧ w_log (User_stop "running" "waiting" "stopping" demo_group (PyBool true)
             (User_start demo_spawn_numbered (PyObj "Group" 7)
                (User_start demo_spawn_numbered demo_group
                   (fresh demo_MyUser)).2).2).2
    = [EvSpawn demo_group; EvSpawn (PyObj "Group" 7);
       EvKillone demo_group (PyObj "Greenlet" 8)]
  ∧ ∀ g : PyVal,
      EvKillone g (PyObj "Greenlet" 1)
        ∉ [EvSpawn demo_group; EvSpawn (PyObj "Group" 7);
           EvKillone demo_group (PyObj "Greenlet" 8)].
Proof.
  split; [reflexivity |]. split; [discriminate |].
  exact (proj2 (second_start_replaces_handle "running" "waiting" "stopping"
                  demo_spawn_numbered (fresh demo_MyUser)
                  demo_group (PyObj "Group" 7) demo_group (PyBool true)
                  eq_refl ltac:(discriminate))).
Defined.

Lemma UserMeta_new_raises_witness :
  demo_resolver_fails [demo_User] ∅ = Raised demo_failure
  ∧ UserMeta_new demo_resolver_fails demo_check "MyUser" [demo_User] ∅ []
    = (Raised demo_failure, [EvGetTasks "MyUser"]).
Proof.
  split; [reflexivity |].
  exact (proj1 (UserMeta_new_raises demo_resolver_fails demo_check
                  "MyUser" [demo_User] ∅ [] demo_failure) eq_refl).
Defined.



Lemma HttpUser_init_bad_environment_witness :
  instance_lookup (w_self (fresh demo_WebUser)) "host" = Some demo_url
  ∧ is_None demo_url = false
  ∧ getattr_value demo_ext_getattr demo_builtins PyNone "events"
    = Raised (AttributeError "'NoneType' object has no attribute events")
  ∧ HttpUser_init demo_ext_getattr demo_HttpSession demo_builtins PyNone
      (fresh demo_WebUser)
    = (Raised (AttributeError "'NoneType' object has no attribute events"),
       MkWorld (instance_set (w_self (fresh demo_WebUser)) "environment"
                  PyNone) []).
Proof.
  split; [reflexivity |]. split; [reflexivity |]. split; [reflexivity |].
  apply (HttpUser_init_bad_environment demo_ext_getattr demo_HttpSession
           demo_builtins (fresh demo_WebUser) PyNone demo_url);
    [reflexivity | reflexivity | left; reflexivity].
Defined.

Lemma run_old_script_fails_witness :
  instance_lookup (w_self (fresh demo_MyUser)) "client"
    = Some (PyObj "NoClientWarningRaiser" 0)
  ∧ instance_lookup (NoClientWarningRaiser_new demo_builtins) "get" = None
  ∧ User_run "running"
      (setup_reads_client demo_ext_getattr demo_builtins "get") User_on_stop
      demo_loop_returns demo_DefaultTaskSet (fresh demo_MyUser)
    = (Raised (LocustError no_client_message),
       MkWorld demo_entered [EvHook "on_start" demo_entered]).
Proof.
  split; [reflexivity |]. split; [reflexivity |].
  exact (run_old_script_fails "running" User_on_stop demo_loop_returns
           demo_DefaultTaskSet demo_ext_getattr demo_builtins
           (fresh demo_MyUser) 0 "get" eq_refl eq_refl).
Defined.
